(** * backend-tut: the two servers of [index.js]

    The repository holds two small programs:

    - a server built on Node's [http] module, whose request listener
      compares [req.url] with two literals and answers with [res.end];
    - an Express application with two middlewares ([morgan("dev")] and a
      logging function) and three [GET] routes.

    Both are embedded as state transformers over the part of the process
    that the code touches: the lines written with [console.log] and the
    calls made on the response object of the request being served. *)

From Stdlib Require Import String Ascii List ZArith Bool Lia DecimalString.
Import ListNotations.

Local Open Scope string_scope.
Local Open Scope list_scope.

(** ** Requests, responses, process state *)

(** [req]: the two fields of the incoming message that routing can see. *)
Record IncomingMessage : Type := mkReq {
  method : string;
  url : string
}.

(** A call that writes the response of the current request. *)
Inductive ResCall : Type :=
| End_ (data : string)        (* res.end(data) *)
| Send (body : string)        (* res.send(body) *)
| Render (view : string)      (* res.render(view) *)
| NotFound404.                (* a reply with status 404; Express's final
                                 handler writes it *)

(** [stdout] persists from one request to the next; [res] is the response
    object, created afresh for every request.  Both lists are oldest
    first. *)
Record World : Type := mkWorld {
  stdout : list string;
  res : list ResCall
}.

(** The body carried by a response call, when it carries one literally. *)
Definition body_of (c : ResCall) : option string :=
  match c with
  | End_ data => Some data
  | Send body => Some body
  | Render _ => None
  | NotFound404 => None
  end.

(** The not-found outcome: the response written for the request is the
    404 one. *)
Definition not_found (calls : list ResCall) : Prop := In NotFound404 calls.

(** ** A state monad for handler bodies *)

Definition M (A : Type) : Type := World -> A * World.

Definition ret {A : Type} (a : A) : M A := fun w => (a, w).

Definition bind {A B : Type} (m : M A) (k : A -> M B) : M B :=
  fun w => let (a, w') := m w in k a w'.

Declare Scope js_scope.
Delimit Scope js_scope with js.
Notation "x <- m ;; k" := (bind m (fun x => k))
  (at level 100, m at next level, right associativity) : js_scope.
Notation "m ;; k" := (bind m (fun _ => k))
  (at level 100, right associativity) : js_scope.
Local Open Scope js_scope.

(** [if (c) { m }] with no [else]. *)
Definition when (c : bool) (m : M unit) : M unit :=
  if c then m else ret tt.

Definition console_log (line : string) : M unit :=
  fun w => (tt, mkWorld (stdout w ++ [line]) (res w)).

Definition res_call (c : ResCall) : M unit :=
  fun w => (tt, mkWorld (stdout w) (res w ++ [c])).

Definition res_end (data : string) : M unit := res_call (End_ data).
Definition res_send (body : string) : M unit := res_call (Send body).
Definition res_render (view : string) : M unit := res_call (Render view).

(** Final state of a computation. *)
Definition exec {A : Type} (m : M A) (w : World) : World := snd (m w).

(** ** The [http] server *)

Module RawServer.

(** The function given to [http.createServer].  [req.url] is a string, so
    [==] against a string literal is equality of strings. *)
Definition requestListener (req : IncomingMessage) : M unit :=
  when (url req =? "/") (res_end "Hello World!") ;;
  when (url req =? "/about") (res_end "About page").

(** [server.listen(3000, ...)]: the callback prints one line. *)
Definition listen : M unit := console_log "server running".

(** Serving one request on a process whose output so far is [out]: the
    listener runs on a fresh response object.  The result is the output
    afterwards and the calls made on the response. *)
Definition serve (out : list string) (req : IncomingMessage)
  : list string * list ResCall :=
  let w := exec (requestListener req) (mkWorld out []) in
  (stdout w, res w).

(** Serving a sequence of requests, one after the other. *)
Fixpoint serve_all (out : list string) (reqs : list IncomingMessage)
  : list string * list (list ResCall) :=
  match reqs with
  | [] => (out, [])
  | req :: rest =>
      let (out', calls) := serve out req in
      let (out'', more) := serve_all out' rest in
      (out'', calls :: more)
  end.

(** The response calls made for one request. *)
Definition response (req : IncomingMessage) : list ResCall :=
  snd (serve [] req).

End RawServer.

(** ** The Express application *)

Module Express.

(** How a middleware or route function hands over: it either calls
    [next()] as its last action or returns without calling it. *)
Inductive Control : Type := Next | Stop.

(** A function [(req, res, next) => ...]. *)
Definition Handler : Type := IncomingMessage -> M Control.

Definition next : M Control := ret Next.
Definition done : M Control := ret Stop.

(** An entry of the application's stack, in registration order. *)
Inductive Layer : Type :=
| Use (fn : Handler)                                   (* app.use(fn) *)
| Route (verb : string) (path : string) (fn : Handler). (* app.get(path, fn) *)

Record Application : Type := mkApp {
  settings : list (string * string);
  stack : list Layer
}.

(** The module's top level runs once; a call that throws there ends the
    process before it listens. *)
Inductive Startup (A : Type) : Type :=
| Started (a : A)
| Threw (error : string).
Arguments Started {A} a.
Arguments Threw {A} error.

Definition and_then {A B : Type} (s : Startup A) (k : A -> Startup B)
  : Startup B :=
  match s with
  | Started a => k a
  | Threw e => Threw e
  end.

Notation "s |> k" := (and_then s k) (at level 50, left associativity).

(** Modelled from the spec: [express()], of the Express library, which is
    not among the sources; an application with nothing registered. *)
Definition express : Startup Application := Started (mkApp [] []).

(** Modelled from the spec: [app.use(fn)], of Express, not among the
    sources; the spec has it append a middleware to the chain, with no
    constraint. *)
Definition app_use (fn : Handler) (a : Application) : Startup Application :=
  Started (mkApp (settings a) (stack a ++ [Use fn])).

(** Modelled from the spec: [app.set(name, value)], of Express, not among
    the sources; it records a setting and leaves the chain alone. *)
Definition app_set (name value : string) (a : Application)
  : Startup Application :=
  Started (mkApp ((name, value) :: settings a) (stack a)).

(** Modelled from the spec: [app.get(path, fn)], of Express, not among the
    sources.  It follows the spec's account of what the source does when
    it registers: the route is added in registration order, and a pair
    that is registered already is registered again, silently. *)
Definition app_get (path : string) (fn : Handler) (a : Application)
  : Startup Application :=
  Started (mkApp (settings a) (stack a ++ [Route "GET" path fn])).

(** Is a (verb, path) pair among the routes of a stack? *)
Definition registered (verb path : string) (layers : list Layer) : bool :=
  existsb (fun l => match l with
                    | Use _ => false
                    | Route v p _ => (v =? verb) && (p =? path)
                    end) layers.

Definition layer_fn (l : Layer) : Handler :=
  match l with
  | Use fn => fn
  | Route _ _ fn => fn
  end.

Definition is_route (l : Layer) : bool :=
  match l with
  | Use _ => false
  | Route _ _ _ => true
  end.

(** Of the positions in [called], those that hold a route of the stack. *)
Definition routes_among (layers : list Layer) (called : list nat) : list nat :=
  filter (fun i => match nth_error layers i with
                   | Some l => is_route l
                   | None => false
                   end) called.

(** Decimal text of an integer, as [+] gives when it joins a string and
    a whole number. *)
Definition string_of_Z (z : Z) : string := NilZero.string_of_int (Z.to_int z).

(** The second [app.use]. *)
Definition middleware : Handler := fun req =>
  console_log "This is middleware function" ;;
  let a := 10%Z in
  let b := 20%Z in
  let c := (a + b)%Z in
  console_log ("the sum of a and b is : " ++ string_of_Z c) ;;
  next.

(** [app.get('/', ...)]. *)
Definition root : Handler := fun req =>
  console_log "Running successfully" ;;
  res_render "index" ;;
  done.

(** [app.get('/about', ...)]. *)
Definition about : Handler := fun req =>
  res_send "About page" ;;
  done.

(** [app.get('/contact', ...)]. *)
Definition contact : Handler := fun req =>
  res_send "Contact page" ;;
  done.

(** Modelled from the spec: what happens when no route matches is
    Express's, not in the sources; the spec has the not-found outcome
    written then.  Nothing is written over a response already there. *)
Definition finalhandler : M unit := fun w =>
  match res w with
  | [] => res_call NotFound404 w
  | _ :: _ => (tt, w)
  end.

Section Library.

(** Two parts of the libraries are taken as given: the middleware that
    [morgan(format)] returns, and Express's test of whether a route
    registered for [verb] and [path] accepts a request. *)
Variable morgan : string -> Handler.
Variable accepts : string -> string -> IncomingMessage -> bool.

Definition layer_accepts (l : Layer) (req : IncomingMessage) : bool :=
  match l with
  | Use _ => true
  | Route verb path _ => accepts verb path req
  end.

(** Modelled from the spec: the dispatch loop is Express's router, not in
    the sources.  The spec has the chain run in registration order, each
    entry either ending the chain or continuing it, and then the first
    matching route called.  As in Express, middlewares and routes are kept
    on one stack; an application that registers its middlewares before its
    routes, as [index.js] does, runs the chain first and then the first
    route that accepts.

    Walking the stack from position [i]: every layer that accepts the
    request is called, in order, for as long as the one before called
    [next()].  The result lists the positions of the layers called and
    tells whether the last one handed over ([Next]: the stack is
    exhausted). *)
Fixpoint run_stack (i : nat) (layers : list Layer) (req : IncomingMessage)
  : M (list nat * Control) :=
  match layers with
  | [] => ret ([], Next)
  | l :: rest =>
      if layer_accepts l req then
        c <- layer_fn l req ;;
        match c with
        | Stop => ret ([i], Stop)
        | Next =>
            r <- run_stack (S i) rest req ;;
            ret (i :: fst r, snd r)
        end
      else run_stack (S i) rest req
  end.

(** Modelled from the spec: dispatch of one request, Express's
    [app.handle], not in the sources: the stack, then the not-found
    outcome if the stack was exhausted. *)
Definition handle (a : Application) (req : IncomingMessage) : M (list nat) :=
  r <- run_stack 0 (stack a) req ;;
  match snd r with
  | Next => finalhandler ;; ret (fst r)
  | Stop => ret (fst r)
  end.

(** The statements of the file, top to bottom. *)
Definition app : Startup Application :=
  express
  |> app_use (morgan "dev")
  |> app_set "view engine" "ejs"
  |> app_use middleware
  |> app_get "/" root
  |> app_get "/about" about
  |> app_get "/contact" contact.

(** One request served by a started application on a process whose
    output so far is [out], with a fresh response object: the positions
    of the layers called, the output afterwards, the response calls. *)
Definition serve (a : Application) (out : list string) (req : IncomingMessage)
  : list nat * list string * list ResCall :=
  let (called, w) := handle a req (mkWorld out []) in
  (called, stdout w, res w).

Definition called (a : Application) (req : IncomingMessage) : list nat :=
  fst (fst (serve a [] req)).

Definition response (a : Application) (req : IncomingMessage) : list ResCall :=
  snd (serve a [] req).

(** A sequence of requests served one after the other by the same
    process: the output at the end and the response calls of each. *)
Fixpoint serve_all (a : Application) (out : list string)
         (reqs : list IncomingMessage) : list string * list (list ResCall) :=
  match reqs with
  | [] => (out, [])
  | req :: rest =>
      let '(_, out', calls) := serve a out req in
      let (out'', more) := serve_all a out' rest in
      (out'', calls :: more)
  end.

End Library.

(** Instances of the two library parts, for running the model: a logger
    that only hands over, and acceptance by equal verb and equal path. *)
Definition morgan_quiet : string -> Handler := fun _ _ => next.

Definition accepts_exact : string -> string -> IncomingMessage -> bool :=
  fun verb path req => (method req =? verb) && (url req =? path).

End Express.

(** * Properties of the [http] server *)

Section RawServerFacts.

Import RawServer.

Example raw_listen_prints :
  exec listen (mkWorld [] []) = mkWorld ["server running"] [].
Proof. reflexivity. Qed.

Example raw_get_root : response (mkReq "GET" "/") = [End_ "Hello World!"].
Proof. reflexivity. Qed.

Example raw_get_about : response (mkReq "GET" "/about") = [End_ "About page"].
Proof. reflexivity. Qed.

Example raw_get_unknown : response (mkReq "GET" "/unknown") = [].
Proof. reflexivity. Qed.

Example raw_get_About : response (mkReq "GET" "/About") = [].
Proof. reflexivity. Qed.

Example raw_post_about : response (mkReq "POST" "/about") = [End_ "About page"].
Proof. reflexivity. Qed.

Example raw_get_root_with_query : response (mkReq "GET" "/?x=1") = [].
Proof. reflexivity. Qed.

(** What the listener does, by cases on the url; the process output is
    left as it was. *)
Lemma raw_serve_cases (out : list string) (req : IncomingMessage) :
  serve out req =
  (out,
   if url req =? "/" then [End_ "Hello World!"]
   else if url req =? "/about" then [End_ "About page"]
   else []).
Proof.
  unfold serve, exec, requestListener, bind, when.
  destruct (String.eqb_spec (url req) "/") as [E | E].
  - rewrite E. reflexivity.
  - destruct (url req =? "/about"); reflexivity.
Qed.

Lemma raw_response_cases (req : IncomingMessage) :
  response req =
  if url req =? "/" then [End_ "Hello World!"]
  else if url req =? "/about" then [End_ "About page"]
  else [].
Proof. unfold response. rewrite raw_serve_cases. reflexivity. Qed.

(** The response never depends on the output so far. *)
Lemma raw_serve_response (out : list string) (req : IncomingMessage) :
  serve out req = (out, response req).
Proof. rewrite raw_serve_cases, raw_response_cases. reflexivity. Qed.

Lemma raw_serve_all_map (out : list string) (reqs : list IncomingMessage) :
  serve_all out reqs = (out, map response reqs).
Proof.
  induction reqs as [| req rest IH]; cbn [serve_all map].
  - reflexivity.
  - rewrite raw_serve_response, IH. reflexivity.
Qed.

End RawServerFacts.

(** C1, as stated, fails: a request for a url other than the two that the
    listener tests gets no response at all. *)
Lemma raw_unknown_url_not_one_response :
  length (RawServer.response (mkReq "GET" "/unknown")) <> 1.
Proof. rewrite raw_get_unknown. discriminate. Qed.

(** C1, amended: the listener never writes a second response for a
    request, and it writes one exactly when the url is ["/"] or
    ["/about"]. *)
Theorem raw_at_most_one_response :
  forall req : IncomingMessage,
    length (RawServer.response req) <= 1 /\
    (length (RawServer.response req) = 1 <->
     url req = "/" \/ url req = "/about").
Proof.
  intros req. rewrite raw_response_cases.
  destruct (String.eqb_spec (url req) "/") as [E1 | E1].
  - simpl. split; [lia | tauto].
  - destruct (String.eqb_spec (url req) "/about") as [E2 | E2]; simpl.
    + split; [lia | tauto].
    + split; [lia |]. split; [discriminate | tauto].
Qed.

(** C2, as stated, fails: for [GET /unknown] the outcome is not the
    not-found one, since nothing is written. *)
Lemma raw_unknown_url_not_not_found :
  ~ not_found (RawServer.response (mkReq "GET" "/unknown")).
Proof. rewrite raw_get_unknown. intros []. Qed.

(** C2, amended: a request whose url is neither ["/"] nor ["/about"] gets
    no response call from the listener, hence no handler's body and no
    not-found reply either. *)
Theorem raw_unmatched_url_no_response :
  forall req : IncomingMessage,
    url req <> "/" -> url req <> "/about" ->
    RawServer.response req = [].
Proof.
  intros req H1 H2. rewrite raw_response_cases.
  destruct (String.eqb_spec (url req) "/"); [contradiction |].
  destruct (String.eqb_spec (url req) "/about"); [contradiction |].
  reflexivity.
Qed.

Lemma raw_unmatched_url_no_response_witness :
  RawServer.response (mkReq "GET" "/unknown") = [].
Proof.
  apply (raw_unmatched_url_no_response (mkReq "GET" "/unknown"));
    simpl; discriminate.
Defined.

(** C3, as stated, fails: a [POST] for ["/about"] gets the answer of the
    ["/about"] branch, like a [GET]. *)
Lemma raw_post_about_answered :
  "POST" <> "GET" /\
  RawServer.response (mkReq "POST" "/about") = [End_ "About page"].
Proof. split; [discriminate | reflexivity]. Qed.

(** C3, amended: the listener matches on the url alone; the method of the
    request is not consulted, so two requests with the same url get the
    same response whatever their methods. *)
Theorem raw_method_not_consulted :
  forall (m m' u : string),
    RawServer.response (mkReq m u) = RawServer.response (mkReq m' u).
Proof. intros m m' u. rewrite !raw_response_cases. reflexivity. Qed.

(** C6: the comparison of the url is equality of strings, letter case
    included: a branch of the listener does not answer a request whose url
    differs from the branch's literal. *)
Theorem raw_path_match_exact :
  forall (req : IncomingMessage) (p body : string),
    In (p, body) [("/", "Hello World!"); ("/about", "About page")] ->
    url req <> p ->
    ~ In (End_ body) (RawServer.response req).
Proof.
  intros req p body Hin Hne. rewrite raw_response_cases.
  destruct (String.eqb_spec (url req) "/") as [E1 | E1];
    [| destruct (String.eqb_spec (url req) "/about") as [E2 | E2]];
    simpl in *; intros Hc;
    repeat match goal with
           | H : _ \/ _ |- _ => destruct H
           | H : (_, _) = (_, _) |- _ => inversion H; clear H; subst
           | H : End_ _ = End_ _ |- _ => inversion H; clear H
           | H : False |- _ => destruct H
           end;
    try congruence.
Qed.

Lemma raw_path_match_exact_witness :
  ~ In (End_ "About page") (RawServer.response (mkReq "GET" "/About")).
Proof.
  apply (raw_path_match_exact (mkReq "GET" "/About") "/about" "About page").
  - simpl. right. left. reflexivity.
  - simpl. discriminate.
Defined.

(** C8: serving leaves the process state as it was and each response is a
    function of its own request; so the same [GET /] served twice, after
    anything, gets the same response both times. *)
Theorem raw_dispatch_stateless :
  forall (out : list string) (before : list IncomingMessage),
    RawServer.serve_all out (before ++ [mkReq "GET" "/"; mkReq "GET" "/"]) =
    (out, map RawServer.response before
            ++ [[End_ "Hello World!"]; [End_ "Hello World!"]]).
Proof.
  intros out before. rewrite raw_serve_all_map, map_app.
  reflexivity.
Qed.

(** C9: the listener answers [GET /] with the body ["Hello World!"]. *)
Theorem raw_get_root_hello_world :
  map body_of (RawServer.response (mkReq "GET" "/")) = [Some "Hello World!"].
Proof. reflexivity. Qed.

(** X8: the [http] server prints its one line when it starts to listen
    and nothing for the requests it serves, however many and whatever
    they are. *)
Theorem raw_console_only_listen_line :
  forall (w : World) (reqs : list IncomingMessage),
    fst (RawServer.serve_all (stdout (exec RawServer.listen w)) reqs)
    = stdout w ++ ["server running"].
Proof. intros w reqs. rewrite raw_serve_all_map. reflexivity. Qed.

(** * Properties of the Express application *)

Section ExpressFacts.

Import Express.

(** ** Facts that hold whatever the library parts are *)

Section AnyLibrary.

Variable accepts : string -> string -> IncomingMessage -> bool.

(** A stack in two parts: the second part runs only if the first handed
    over, on the world the first left. *)
Lemma run_stack_app (l1 l2 : list Layer) (req : IncomingMessage) :
  forall (i : nat) (w : World),
    run_stack accepts i (l1 ++ l2) req w =
    let '(tr1, c1, w1) := run_stack accepts i l1 req w in
    match c1 with
    | Stop => (tr1, Stop, w1)
    | Next =>
        let '(tr2, c2, w2) := run_stack accepts (i + length l1) l2 req w1 in
        (tr1 ++ tr2, c2, w2)
    end.
Proof.
  induction l1 as [| l rest IH]; intros i w.
  - cbn [List.app run_stack length ret]. rewrite Nat.add_0_r.
    destruct (run_stack accepts i l2 req w) as [[tr2 c2] w2]. reflexivity.
  - cbn [List.app run_stack length].
    replace (i + S (length rest)) with (S i + length rest) by lia.
    destruct (layer_accepts accepts l req).
    + unfold bind. destruct (layer_fn l req w) as [c w'].
      destruct c.
      * rewrite IH.
        destruct (run_stack accepts (S i) rest req w') as [[tr1 c1] w1].
        destruct c1; cbn [ret fst snd].
        -- destruct (run_stack accepts (S i + length rest) l2 req w1)
             as [[tr2 c2] w2]. reflexivity.
        -- reflexivity.
      * reflexivity.
    + apply IH.
Qed.

(** A stack that answered is not affected by layers added after it. *)
Lemma run_stack_answered (l1 l2 : list Layer) (req : IncomingMessage)
      (i : nat) (w : World) :
  snd (fst (run_stack accepts i l1 req w)) = Stop ->
  run_stack accepts i (l1 ++ l2) req w = run_stack accepts i l1 req w.
Proof.
  intros H. rewrite run_stack_app.
  destruct (run_stack accepts i l1 req w) as [[tr1 c1] w1].
  simpl in H. subst c1. reflexivity.
Qed.


(** When the stack is exhausted, every layer that accepts the request
    has been called and has handed over. *)
Lemma run_stack_exhausted (layers : list Layer) (req : IncomingMessage) :
  forall (i : nat) (w : World),
    snd (fst (run_stack accepts i layers req w)) = Next ->
    forall l : Layer,
      In l layers -> layer_accepts accepts l req = true ->
      exists w0 : World, fst (layer_fn l req w0) = Next.
Proof.
  induction layers as [| l0 rest IH]; intros i w Hnext l Hin Hacc.
  - destruct Hin.
  - cbn [run_stack] in Hnext.
    destruct (layer_accepts accepts l0 req) eqn:E0.
    + unfold bind in Hnext.
      destruct (layer_fn l0 req w) as [c w'] eqn:Efn.
      destruct c; [| discriminate Hnext].
      destruct Hin as [<- | Hin].
      * exists w. rewrite Efn. reflexivity.
      * destruct (run_stack accepts (S i) rest req w') as [[tr c1] w1] eqn:Er.
        apply (IH (S i) w'); [rewrite Er; exact Hnext | exact Hin | exact Hacc].
    + destruct Hin as [<- | Hin]; [congruence |].
      apply (IH (S i) w); assumption.
Qed.

End AnyLibrary.


Lemma registered_In (verb path : string) (layers : list Layer) :
  registered verb path layers = true ->
  exists fn : Handler, In (Route verb path fn) layers.
Proof.
  unfold registered. intros H. apply existsb_exists in H.
  destruct H as [[fn | v p fn] [Hin Hl]]; [discriminate |].
  apply andb_true_iff in Hl. destruct Hl as [Hv Hp].
  apply String.eqb_eq in Hv, Hp. subst. exists fn. exact Hin.
Qed.

(** C7, as stated, fails: with [GET /about] registered, registering
    [GET /about] again returns normally, with both routes on the stack. *)
Lemma express_duplicate_get_not_refused :
  express |> app_get "/about" about
  = Started (mkApp [] [Route "GET" "/about" about]) /\
  registered "GET" "/about" [Route "GET" "/about" about] = true /\
  app_get "/about" about (mkApp [] [Route "GET" "/about" about])
  = Started (mkApp [] [Route "GET" "/about" about;
                       Route "GET" "/about" about]) /\
  app_get "/about" about (mkApp [] [Route "GET" "/about" about])
  <> Threw "ConfigurationError".
Proof. repeat split; discriminate. Qed.

(** C7, amended: registering a pair that is already registered does not
    fail: the route is added after the layers already there.  When the
    routes registered before for that pair return without calling
    [next()], the added route is never reached and every request is
    served exactly as before: the route registered first answers. *)
Theorem express_duplicate_route_appended :
  forall (path : string) (fn : Handler) (a : Application),
    registered "GET" path (stack a) = true ->
    (forall fn' : Handler,
        In (Route "GET" path fn') (stack a) ->
        forall req w, fst (fn' req w) = Stop) ->
    exists a' : Application,
      app_get path fn a = Started a' /\
      stack a' = stack a ++ [Route "GET" path fn] /\
      forall (accepts : string -> string -> IncomingMessage -> bool)
             (req : IncomingMessage) (w : World),
        handle accepts a' req w = handle accepts a req w.
Proof.
  intros path fn a Hreg Hstop.
  eexists. split; [reflexivity |]. split; [reflexivity |].
  intros accepts req w. unfold handle, bind. cbn [stack].
  rewrite run_stack_app.
  destruct (run_stack accepts 0 (stack a) req w) as [[tr c] w1] eqn:E.
  destruct c; [| reflexivity].
  cbn [run_stack layer_accepts].
  destruct (accepts "GET" path req) eqn:Hacc.
  - exfalso.
    destruct (registered_In _ _ _ Hreg) as [fn' Hin].
    destruct (run_stack_exhausted accepts (stack a) req 0 w
                ltac:(rewrite E; reflexivity) _ Hin Hacc) as [w0 Hw0].
    cbn [layer_fn] in Hw0. rewrite (Hstop fn' Hin) in Hw0. discriminate.
  - cbn [ret fst snd]. rewrite app_nil_r. reflexivity.
Qed.

(** ** Facts about the application of [index.js] *)

Section WithLibrary.

Variable morgan : string -> Handler.
Variable accepts : string -> string -> IncomingMessage -> bool.

(** What is assumed of the libraries: the middleware of [morgan] calls
    [next()] and writes no response; on the three paths that the
    application registers, a [GET] route accepts a [GET] request exactly
    when the request's url is the route's path. *)
Hypothesis morgan_hands_over :
  forall fmt req w, fst (morgan fmt req w) = Next.
Hypothesis morgan_leaves_res :
  forall fmt req w, res (snd (morgan fmt req w)) = res w.
Hypothesis accepts_own_paths :
  forall p u,
    In p ["/"; "/about"; "/contact"] -> In u ["/"; "/about"; "/contact"] ->
    accepts "GET" p (mkReq "GET" u) = (p =? u).

Lemma app_started :
  app morgan =
  Started (mkApp [("view engine", "ejs")]
                 [Use (morgan "dev"); Use middleware;
                  Route "GET" "/" root; Route "GET" "/about" about;
                  Route "GET" "/contact" contact]).
Proof. reflexivity. Qed.

(** The application serving a [GET] for one of its own paths. *)
Lemma app_handle_own_path (a : Application) (u : string) (w : World) :
  app morgan = Started a ->
  In u ["/"; "/about"; "/contact"] ->
  let req := mkReq "GET" u in
  let w2 := exec (middleware req) (snd (morgan "dev" req w)) in
  handle accepts a req w =
  if u =? "/" then ([0; 1; 2], exec (root req) w2)
  else if u =? "/about" then ([0; 1; 3], exec (about req) w2)
  else ([0; 1; 4], exec (contact req) w2).
Proof.
  rewrite app_started. intros Ha Hu req w2. injection Ha as <-.
  unfold handle, bind. cbn [stack run_stack layer_accepts layer_fn].
  unfold bind.
  pose proof (morgan_hands_over "dev" req w) as Hn.
  subst w2. destruct (morgan "dev" req w) as [c w1]. simpl in Hn. subst c.
  cbn [snd]. unfold req in *.
  rewrite !accepts_own_paths by (simpl; tauto).
  simpl in Hu. destruct Hu as [<- | [<- | [<- | []]]]; reflexivity.
Qed.

(** The response written for a [GET] of one of the application's own
    paths. *)
Lemma app_response_own_path (a : Application) (u : string) :
  app morgan = Started a ->
  In u ["/"; "/about"; "/contact"] ->
  response accepts a (mkReq "GET" u) =
  if u =? "/" then [Render "index"]
  else if u =? "/about" then [Send "About page"]
  else [Send "Contact page"].
Proof.
  intros Ha Hu. unfold response, serve.
  pose proof (app_handle_own_path a u (mkWorld [] []) Ha Hu) as E.
  cbv zeta in E. rewrite E. clear E.
  pose proof (morgan_leaves_res "dev" (mkReq "GET" u) (mkWorld [] [])) as Hr.
  destruct (morgan "dev" (mkReq "GET" u) (mkWorld [] [])) as [c w1].
  simpl in Hr.
  destruct (u =? "/"); [| destruct (u =? "/about")];
    cbn; rewrite Hr; reflexivity.
Qed.

Lemma app_called_own_path (a : Application) (u : string) :
  app morgan = Started a ->
  In u ["/"; "/about"; "/contact"] ->
  called accepts a (mkReq "GET" u) =
  if u =? "/" then [0; 1; 2]
  else if u =? "/about" then [0; 1; 3]
  else [0; 1; 4].
Proof.
  intros Ha Hu. unfold called, serve.
  pose proof (app_handle_own_path a u (mkWorld [] []) Ha Hu) as E.
  cbv zeta in E. rewrite E. clear E.
  destruct (u =? "/"); [| destruct (u =? "/about")]; reflexivity.
Qed.

(** [GET /] on the application: the layers called, the lines printed
    after whatever [morgan] printed, and the response. *)
Lemma app_serve_root (a : Application) (out : list string) :
  app morgan = Started a ->
  serve accepts a out (mkReq "GET" "/") =
  ([0; 1; 2],
   stdout (snd (morgan "dev" (mkReq "GET" "/") (mkWorld out [])))
     ++ ["This is middleware function"; "the sum of a and b is : 30";
         "Running successfully"],
   [Render "index"]).
Proof.
  intros Ha. unfold serve.
  pose proof (app_handle_own_path a "/" (mkWorld out []) Ha) as E.
  cbv zeta in E. rewrite E by (simpl; tauto). clear E.
  pose proof (morgan_leaves_res "dev" (mkReq "GET" "/") (mkWorld out [])) as Hr.
  destruct (morgan "dev" (mkReq "GET" "/") (mkWorld out [])) as [c w1].
  cbn in Hr |- *. rewrite Hr, <- !app_assoc. reflexivity.
Qed.

(** X1: whatever the request and whatever the routes accept, the
    application writes exactly one response: a route's, or the final
    handler's. *)
Lemma app_one_response (a : Application) (req : IncomingMessage) :
  app morgan = Started a ->
  length (response accepts a req) = 1.
Proof.
  rewrite app_started. intros Ha. injection Ha as <-.
  unfold response, serve, handle, bind.
  cbn [stack run_stack layer_accepts layer_fn]. unfold bind.
  pose proof (morgan_hands_over "dev" req (mkWorld [] [])) as Hn.
  pose proof (morgan_leaves_res "dev" req (mkWorld [] [])) as Hr.
  destruct (morgan "dev" req (mkWorld [] [])) as [c w1].
  cbn in Hn, Hr. subst c.
  destruct (accepts "GET" "/" req);
    [| destruct (accepts "GET" "/about" req);
       [| destruct (accepts "GET" "/contact" req)]];
    cbn; rewrite ?Hr; reflexivity.
Qed.


(** C10: the application registers [GET /contact], and the response to
    [GET /contact] is the body ["Contact page"]. *)
Theorem express_get_contact :
  forall a : Application,
    app morgan = Started a ->
    registered "GET" "/contact" (stack a) = true /\
    map body_of (response accepts a (mkReq "GET" "/contact"))
    = [Some "Contact page"].
Proof.
  intros a Ha. split.
  - rewrite app_started in Ha. injection Ha as <-. reflexivity.
  - rewrite (app_response_own_path a "/contact" Ha) by (simpl; tauto).
    reflexivity.
Qed.

(** ** The application on any request *)

(** Every case of one request served: both middlewares run, then the
    first of the three routes that accepts, or else the final handler. *)
Lemma app_serve_cases (a : Application) (out : list string)
      (req : IncomingMessage) :
  app morgan = Started a ->
  serve accepts a out req =
  let o := stdout (snd (morgan "dev" req (mkWorld out [])))
             ++ ["This is middleware function";
                 "the sum of a and b is : 30"] in
  if accepts "GET" "/" req
  then ([0; 1; 2], o ++ ["Running successfully"], [Render "index"])
  else if accepts "GET" "/about" req
  then ([0; 1; 3], o, [Send "About page"])
  else if accepts "GET" "/contact" req
  then ([0; 1; 4], o, [Send "Contact page"])
  else ([0; 1], o, [NotFound404]).
Proof.
  rewrite app_started. intros Ha. injection Ha as <-.
  unfold serve, handle, bind.
  cbn [stack run_stack layer_accepts layer_fn]. unfold bind.
  pose proof (morgan_hands_over "dev" req (mkWorld out [])) as Hn.
  pose proof (morgan_leaves_res "dev" req (mkWorld out [])) as Hr.
  destruct (morgan "dev" req (mkWorld out [])) as [c w1].
  cbn in Hn, Hr. subst c.
  destruct (accepts "GET" "/" req);
    [| destruct (accepts "GET" "/about" req);
       [| destruct (accepts "GET" "/contact" req)]];
    cbn; rewrite ?Hr, <- ?app_assoc; reflexivity.
Qed.

(** X2: whatever the routes accept, the response is that of the first of
    ["/"], ["/about"], ["/contact"], in this order, whose route accepts
    the request, and the 404 reply when none does. *)
Theorem app_response_first_accepting :
  forall (a : Application) (req : IncomingMessage),
    app morgan = Started a ->
    response accepts a req =
    if accepts "GET" "/" req then [Render "index"]
    else if accepts "GET" "/about" req then [Send "About page"]
    else if accepts "GET" "/contact" req then [Send "Contact page"]
    else [NotFound404].
Proof.
  intros a req Ha. unfold response. rewrite (app_serve_cases a [] req Ha).
  cbv zeta.
  destruct (accepts "GET" "/" req);
    [| destruct (accepts "GET" "/about" req);
       [| destruct (accepts "GET" "/contact" req)]]; reflexivity.
Qed.

(** X3: a request that none of the three routes accepts still goes
    through both middlewares, which print their two lines; no route
    function is called, and the reply is the 404 one. *)
Theorem app_unmatched_not_found :
  forall (a : Application) (out : list string) (req : IncomingMessage),
    app morgan = Started a ->
    accepts "GET" "/" req = false ->
    accepts "GET" "/about" req = false ->
    accepts "GET" "/contact" req = false ->
    serve accepts a out req =
    ([0; 1],
     stdout (snd (morgan "dev" req (mkWorld out [])))
       ++ ["This is middleware function"; "the sum of a and b is : 30"],
     [NotFound404]).
Proof.
  intros a out req Ha H1 H2 H3. rewrite (app_serve_cases a out req Ha).
  cbv zeta. rewrite H1, H2, H3. reflexivity.
Qed.


(** X5: the second middleware runs for every request, after [morgan]'s and
    before any route: its two lines follow what [morgan] printed, and
    only the route for ["/"] adds a line after them. *)
Theorem app_middleware_every_request :
  forall (a : Application) (out : list string) (req : IncomingMessage),
    app morgan = Started a ->
    exists rest : list nat,
      fst (fst (serve accepts a out req)) = 0 :: 1 :: rest /\
      snd (fst (serve accepts a out req)) =
      stdout (snd (morgan "dev" req (mkWorld out [])))
        ++ ["This is middleware function"; "the sum of a and b is : 30"]
        ++ (if accepts "GET" "/" req then ["Running successfully"] else []).
Proof.
  intros a out req Ha. rewrite (app_serve_cases a out req Ha). cbv zeta.
  destruct (accepts "GET" "/" req);
    [| destruct (accepts "GET" "/about" req);
       [| destruct (accepts "GET" "/contact" req)]];
    cbn [fst snd]; eexists; (split; [reflexivity |]);
    rewrite <- ?app_assoc, ?app_nil_r; reflexivity.
Qed.

(** X6: for each route on the stack, the response to the request with the
    route's verb and path is what the route's function writes when run
    alone on a fresh response: the middlewares add nothing to it. *)
Theorem app_response_is_route_own :
  forall (a : Application) (i : nat) (verb path : string) (fn : Handler),
    app morgan = Started a ->
    nth_error (stack a) i = Some (Route verb path fn) ->
    response accepts a (mkReq verb path)
    = res (exec (fn (mkReq verb path)) (mkWorld [] [])).
Proof.
  intros a i verb path fn Ha Hnth.
  pose proof Ha as Ha'. rewrite app_started in Ha'. injection Ha' as <-.
  destruct i as [| [| [| [| [| i]]]]]; cbn in Hnth;
    try discriminate Hnth;
    try (injection Hnth as <- <- <-;
         rewrite (app_response_own_path _ _ Ha) by (simpl; tauto);
         reflexivity).
  destruct i; discriminate Hnth.
Qed.

(** X7: the responses of a sequence of requests do not depend on what the
    process served or printed before: each is the response the request
    gets when served alone. *)
Theorem app_responses_independent :
  forall (a : Application) (out : list string) (reqs : list IncomingMessage),
    app morgan = Started a ->
    snd (serve_all accepts a out reqs) = map (response accepts a) reqs.
Proof.
  intros a out reqs Ha. revert out.
  induction reqs as [| req rest IH]; intros out; cbn [serve_all map].
  - reflexivity.
  - unfold response at 1.
    rewrite (app_serve_cases a out req Ha), (app_serve_cases a [] req Ha).
    cbv zeta.
    destruct (accepts "GET" "/" req);
      [| destruct (accepts "GET" "/about" req);
         [| destruct (accepts "GET" "/contact" req)]];
      match goal with
      | |- context [serve_all accepts a ?o rest] =>
          specialize (IH o); destruct (serve_all accepts a o rest)
      end; cbn [snd] in *; rewrite IH; reflexivity.
Qed.

End WithLibrary.

(** ** The model run with a silent logger and exact acceptance *)

Lemma morgan_quiet_hands_over :
  forall fmt req w, fst (morgan_quiet fmt req w) = Next.
Proof. reflexivity. Qed.

Lemma morgan_quiet_leaves_res :
  forall fmt req w, res (snd (morgan_quiet fmt req w)) = res w.
Proof. reflexivity. Qed.

Lemma accepts_exact_own_paths :
  forall p u,
    In p ["/"; "/about"; "/contact"] -> In u ["/"; "/about"; "/contact"] ->
    accepts_exact "GET" p (mkReq "GET" u) = (p =? u).
Proof. intros p u _ _. unfold accepts_exact. simpl. apply String.eqb_sym. Qed.

Example quiet_get_root :
  exists a, app morgan_quiet = Started a /\
    serve accepts_exact a [] (mkReq "GET" "/") =
    ([0; 1; 2],
     ["This is middleware function"; "the sum of a and b is : 30";
      "Running successfully"],
     [Render "index"]).
Proof. eexists. split; reflexivity. Qed.

Example quiet_short_circuit :
  serve accepts_exact
    (mkApp [] [Use about; Use middleware; Route "GET" "/" root])
    [] (mkReq "GET" "/") = ([0], [], [Send "About page"]).
Proof. reflexivity. Qed.

Example quiet_get_unknown :
  exists a, app morgan_quiet = Started a /\
    response accepts_exact a (mkReq "GET" "/unknown") = [NotFound404].
Proof. eexists. split; reflexivity. Qed.

End ExpressFacts.


Lemma express_get_contact_witness :
  exists a : Express.Application,
    Express.app Express.morgan_quiet = Express.Started a /\
    map body_of
        (Express.response Express.accepts_exact a (mkReq "GET" "/contact"))
    = [Some "Contact page"].
Proof.
  eexists. split; [reflexivity |].
  apply (express_get_contact Express.morgan_quiet Express.accepts_exact
           morgan_quiet_hands_over morgan_quiet_leaves_res
           accepts_exact_own_paths _ eq_refl).
Defined.


Lemma express_duplicate_route_appended_witness :
  exists a a' : Express.Application,
    Express.app Express.morgan_quiet = Express.Started a /\
    Express.app_get "/about" Express.about a = Express.Started a' /\
    forall accepts req w,
      Express.handle accepts a' req w = Express.handle accepts a req w.
Proof.
  eexists.
  destruct (express_duplicate_route_appended "/about" Express.about
              (Express.mkApp [("view engine", "ejs")]
                 [Express.Use (Express.morgan_quiet "dev");
                  Express.Use Express.middleware;
                  Express.Route "GET" "/" Express.root;
                  Express.Route "GET" "/about" Express.about;
                  Express.Route "GET" "/contact" Express.contact])
              eq_refl) as [a' [H1 [_ H2]]].
  - simpl. intros fn' H req w.
    repeat (destruct H as [H | H]; try discriminate H).
    + injection H as <-. reflexivity.
    + destruct H.
  - exists a'. split; [reflexivity |]. split; [exact H1 | exact H2].
Defined.

Lemma app_one_response_witness :
  exists a : Express.Application,
    Express.app Express.morgan_quiet = Express.Started a /\
    length (Express.response Express.accepts_exact a (mkReq "POST" "/nowhere"))
    = 1.
Proof.
  eexists. split; [reflexivity |].
  apply (app_one_response Express.morgan_quiet Express.accepts_exact
           morgan_quiet_hands_over morgan_quiet_leaves_res _
           (mkReq "POST" "/nowhere") eq_refl).
Defined.

Lemma app_response_first_accepting_witness :
  exists a : Express.Application,
    Express.app Express.morgan_quiet = Express.Started a /\
    Express.response (fun _ p _ => negb (p =? "/")) a (mkReq "GET" "/x")
    = [Send "About page"].
Proof.
  eexists. split; [reflexivity |].
  apply (app_response_first_accepting Express.morgan_quiet
           (fun _ p _ => negb (p =? "/"))
           morgan_quiet_hands_over morgan_quiet_leaves_res _
           (mkReq "GET" "/x") eq_refl).
Defined.

Lemma app_unmatched_not_found_witness :
  exists a : Express.Application,
    Express.app Express.morgan_quiet = Express.Started a /\
    Express.serve Express.accepts_exact a [] (mkReq "GET" "/unknown")
    = ([0; 1],
       ["This is middleware function"; "the sum of a and b is : 30"],
       [NotFound404]).
Proof.
  eexists. split; [reflexivity |].
  apply (app_unmatched_not_found Express.morgan_quiet Express.accepts_exact
           morgan_quiet_hands_over morgan_quiet_leaves_res _ []
           (mkReq "GET" "/unknown") eq_refl eq_refl eq_refl eq_refl).
Defined.


Lemma app_middleware_every_request_witness :
  exists (a : Express.Application) (rest : list nat),
    Express.app Express.morgan_quiet = Express.Started a /\
    fst (fst (Express.serve Express.accepts_exact a ["earlier"]
                (mkReq "DELETE" "/about"))) = 0 :: 1 :: rest /\
    snd (fst (Express.serve Express.accepts_exact a ["earlier"]
                (mkReq "DELETE" "/about")))
    = ["earlier"; "This is middleware function";
       "the sum of a and b is : 30"].
Proof.
  eexists.
  destruct (app_middleware_every_request Express.morgan_quiet
              Express.accepts_exact morgan_quiet_hands_over
              morgan_quiet_leaves_res _ ["earlier"]
              (mkReq "DELETE" "/about") eq_refl) as [rest [H1 H2]].
  exists rest. split; [reflexivity |]. split; [exact H1 | exact H2].
Defined.

Lemma app_response_is_route_own_witness :
  exists a : Express.Application,
    Express.app Express.morgan_quiet = Express.Started a /\
    Express.response Express.accepts_exact a (mkReq "GET" "/")
    = [Render "index"].
Proof.
  eexists. split; [reflexivity |].
  apply (app_response_is_route_own Express.morgan_quiet Express.accepts_exact
           morgan_quiet_hands_over morgan_quiet_leaves_res
           accepts_exact_own_paths _ 2 "GET" "/" Express.root eq_refl eq_refl).
Defined.

Lemma app_responses_independent_witness :
  exists a : Express.Application,
    Express.app Express.morgan_quiet = Express.Started a /\
    snd (Express.serve_all Express.accepts_exact a ["earlier"]
           [mkReq "GET" "/about"; mkReq "GET" "/unknown";
            mkReq "GET" "/about"])
    = [[Send "About page"]; [NotFound404]; [Send "About page"]].
Proof.
  eexists. split; [reflexivity |].
  apply (app_responses_independent Express.morgan_quiet Express.accepts_exact
           morgan_quiet_hands_over morgan_quiet_leaves_res _ ["earlier"]
           [mkReq "GET" "/about"; mkReq "GET" "/unknown";
            mkReq "GET" "/about"] eq_refl).
Defined.
